(** * data_preprocess.py: projection, null filter and record serialisation

    The script, in full:

      df = pd.read_csv("./original-dataset/.../survey_results_public.csv")
      columns_for_viz = ["Age", "YearsCodePro", "Country", "Currency",
        "CompTotal", "ConvertedCompYearly", "LanguageHaveWorkedWith",
        "NEWCollabToolsHaveWorkedWith", "OpSysProfessional use", "AISelect"]
      df = df[columns_for_viz]
      df_clean = df.dropna(subset=["Age", "YearsCodePro", "Country",
        "Currency", "CompTotal", "LanguageHaveWorkedWith",
        "NEWCollabToolsHaveWorkedWith", "OpSysProfessional use", "AISelect"])
      df_clean.to_json('./project-dataset/data.json', orient='records',
        indent=2)

    The pandas operations it calls are embedded as functions on a row-major
    frame: a header of labels and a list of rows, each row a list of cells
    aligned with the header.  An exception is a value of [result].  The
    frame [read_csv] returns is the input of the development; what the load
    guarantees about it is stated by [well_formed] and [na_filtered]. *)

From Stdlib Require Import String List Bool Arith ZArith Lia.
Import ListNotations.
Open Scope string_scope.
Open Scope list_scope.

(** ** Exceptions *)

Inductive exn : Type :=
| KeyError (labels : list string)
| ValueError (msg : string).

Inductive result (A : Type) : Type :=
| Ok (a : A)
| Raise (e : exn).

Arguments Ok {A} a.
Arguments Raise {A} e.

Definition bind {A B : Type} (r : result A) (k : A -> result B) : result B :=
  match r with
  | Ok a => k a
  | Raise e => Raise e
  end.

Notation "x <- r ;; k" := (bind r (fun x => k))
  (at level 61, r at next level, right associativity).

(** ** Cells, frames and JSON documents

    A cell is what [read_csv] leaves in a column: the missing-value marker
    NaN, a text, a number or a boolean.  The script never computes with a
    number, so the numeric payload is a parameter of the development. *)

Inductive value (number : Type) : Type :=
| NaN
| Str (s : string)
| Num (x : number)
| Bool (b : bool).

Arguments NaN {number}.
Arguments Str {number} s.
Arguments Num {number} x.
Arguments Bool {number} b.

Record DataFrame (number : Type) : Type := mkFrame {
  columns : list string;
  values : list (list (value number))
}.

Arguments mkFrame {number} columns values.
Arguments columns {number} d.
Arguments values {number} d.

#[warnings="-register-all"]
Inductive json (number : Type) : Type :=
| JNull
| JString (s : string)
| JNumber (x : number)
| JBool (b : bool)
| JArray (items : list (json number))
| JObject (fields : list (string * json number)).

Arguments JNull {number}.
Arguments JString {number} s.
Arguments JNumber {number} x.
Arguments JBool {number} b.
Arguments JArray {number} items.
Arguments JObject {number} fields.

(** How [to_json] writes a number.  With the default [double_precision=10]
    a float is written with ten decimal places, and a float that is not
    finite is written as null ([None] here); [encode_double x] is the number
    a reader of the file gets for the cell [x]. *)
Class Encoder (number : Type) : Type :=
  encode_double : number -> option number.

(** ** Index lookups (pandas.Index) *)

(** Every position of [label] in [labels], counted from [i]. *)
Fixpoint get_locs (label : string) (labels : list string) (i : nat) : list nat :=
  match labels with
  | [] => []
  | l :: rest =>
      if String.eqb label l then i :: get_locs label rest (S i)
      else get_locs label rest (S i)
  end.

(** [Index.get_loc] on an index without repeated labels: the position of
    [label], if it is there. *)
Fixpoint get_loc (label : string) (labels : list string) : option nat :=
  match labels with
  | [] => None
  | l :: rest =>
      if String.eqb label l then Some 0 else option_map S (get_loc label rest)
  end.

(** [Index.get_indexer_for]: for each requested label its positions, or one
    missing entry (pandas writes -1) when the label is not in the index. *)
Definition get_indexer_for (labels target : list string) : list (option nat) :=
  flat_map
    (fun k =>
       match get_locs k labels 0 with
       | [] => [None]
       | locs => map Some locs
       end)
    target.

Definition is_missing (i : option nat) : bool :=
  match i with
  | None => true
  | Some _ => false
  end.

(** The positions of an indexer that has no missing entry. *)
Fixpoint found (indexer : list (option nat)) : list nat :=
  match indexer with
  | [] => []
  | Some i :: rest => i :: found rest
  | None :: rest => found rest
  end.

Definition has_label (labels : list string) (k : string) : bool :=
  existsb (String.eqb k) labels.

(** The requested labels that the index does not hold. *)
Definition not_found (labels target : list string) : list string :=
  filter (fun k => negb (has_label labels k)) target.

(** [Index.unique]: each label once, at its first place. *)
Fixpoint unique (labels : list string) : list string :=
  match labels with
  | [] => []
  | l :: rest => l :: filter (fun k => negb (String.eqb k l)) (unique rest)
  end.

(** [Index._get_indexer_strict]: the indexer, or KeyError naming the labels
    that are not in the index (each once). *)
Definition get_indexer_strict (labels key : list string) : result (list nat) :=
  let indexer := get_indexer_for labels key in
  if existsb is_missing indexer
  then Raise (KeyError (unique (not_found labels key)))
  else Ok (found indexer).

(** [Index.is_unique]. *)
Fixpoint is_unique (labels : list string) : bool :=
  match labels with
  | [] => true
  | l :: rest => negb (has_label rest l) && is_unique rest
  end.

(** ** Frame operations *)

Section Frame.

Context {number : Type} {encoder : Encoder number}.

Local Abbreviation cell := (value number).
Local Abbreviation row := (list (value number)).
Local Abbreviation frame := (DataFrame number).

(** [take] along the column axis.  Positions come from an indexer over the
    frame's own header, so on a rectangular frame the default is never
    read. *)
Definition take (indexer : list nat) (r : row) : row :=
  map (fun i => nth i r NaN) indexer.

Definition take_labels (indexer : list nat) (labels : list string) : list string :=
  map (fun i => nth i labels "") indexer.

(** [df[key]] with a list of labels ([DataFrame.__getitem__]). *)
Definition getitem (d : frame) (key : list string) : result frame :=
  indexer <- get_indexer_strict (columns d) key ;;
  Ok (mkFrame (take_labels indexer (columns d)) (map (take indexer) (values d))).

(** [pandas.notna] on one cell. *)
Definition notna (v : cell) : bool :=
  match v with
  | NaN => false
  | _ => true
  end.

(** [notna(agg_obj).all(axis=1)]: one flag per row. *)
Definition all_notna (agg_obj : list row) : list bool :=
  map (forallb notna) agg_obj.

(** [self.loc[mask]]: the rows whose flag is set, in their order. *)
Fixpoint loc_mask (mask : list bool) (rows : list row) : list row :=
  match mask, rows with
  | b :: mask', r :: rows' =>
      if b then r :: loc_mask mask' rows' else loc_mask mask' rows'
  | _, _ => []
  end.

(** [DataFrame.dropna(subset=...)] with the defaults [axis=0], [how='any']:
    look the subset up in the header (KeyError on a label that is not
    there), take those columns, flag the rows that are non-null in all of
    them and select the flagged rows. *)
Definition dropna (subset : list string) (d : frame) : result frame :=
  let indices := get_indexer_for (columns d) subset in
  if existsb is_missing indices
  then Raise (KeyError (not_found (columns d) subset))
  else
    let agg_obj := map (take (found indices)) (values d) in
    let mask := all_notna agg_obj in
    Ok (mkFrame (columns d) (loc_mask mask (values d))).

(** A cell as [to_json] writes it: NaN becomes null, a number goes through
    the float encoder. *)
Definition to_json_value (v : cell) : json number :=
  match v with
  | NaN => JNull
  | Str s => JString s
  | Num x =>
      match encode_double x with
      | Some y => JNumber y
      | None => JNull
      end
  | Bool b => JBool b
  end.

Definition to_record (labels : list string) (r : row) : json number :=
  JObject (combine labels (map to_json_value r)).

(** [to_json(orient='records')]: an array with one object per row, keyed by
    the column labels in header order.  pandas refuses a header with a
    repeated label for this orientation.  The document is kept as a tree;
    [indent=2] only lays the same tree out over several lines. *)
Definition to_json_records (d : frame) : result (json number) :=
  if is_unique (columns d)
  then Ok (JArray (map (to_record (columns d)) (values d)))
  else Raise (ValueError "DataFrame columns must be unique for orient='records'.").

(** Reading the document back ([json.load]): an array of objects, each a
    list of key and cell pairs in the order written. *)
Definition of_json_value (j : json number) : option cell :=
  match j with
  | JNull => Some NaN
  | JString s => Some (Str s)
  | JNumber x => Some (Num x)
  | JBool b => Some (Bool b)
  | JArray _ | JObject _ => None
  end.

Fixpoint read_fields (fields : list (string * json number)) : option (list (string * cell)) :=
  match fields with
  | [] => Some []
  | (k, j) :: rest =>
      match of_json_value j, read_fields rest with
      | Some v, Some vs => Some ((k, v) :: vs)
      | _, _ => None
      end
  end.

Definition read_record (j : json number) : option (list (string * cell)) :=
  match j with
  | JObject fields => read_fields fields
  | _ => None
  end.

Fixpoint read_items (items : list (json number)) : option (list (list (string * cell))) :=
  match items with
  | [] => Some []
  | j :: rest =>
      match read_record j, read_items rest with
      | Some r, Some rs => Some (r :: rs)
      | _, _ => None
      end
  end.

Definition json_load (doc : json number) : option (list (list (string * cell))) :=
  match doc with
  | JArray items => read_items items
  | _ => None
  end.

(** ** The script *)

Definition columns_for_viz : list string :=
  ["Age"; "YearsCodePro"; "Country"; "Currency"; "CompTotal";
   "ConvertedCompYearly"; "LanguageHaveWorkedWith";
   "NEWCollabToolsHaveWorkedWith"; "OpSysProfessional use"; "AISelect"].

(** The [subset] argument of the [dropna] call. *)
Definition dropna_subset : list string :=
  ["Age"; "YearsCodePro"; "Country"; "Currency"; "CompTotal";
   "LanguageHaveWorkedWith"; "NEWCollabToolsHaveWorkedWith";
   "OpSysProfessional use"; "AISelect"].

(** [df = df[columns_for_viz]], [csv] being the frame [read_csv] returned. *)
Definition df (csv : frame) : result frame :=
  getitem csv columns_for_viz.

(** [df_clean = df.dropna(subset=[...])]. *)
Definition df_clean (csv : frame) : result frame :=
  d <- df csv ;; dropna dropna_subset d.

(** [df_clean.to_json(..., orient='records', indent=2)]: the document
    written to data.json. *)
Definition data_json (csv : frame) : result (json number) :=
  d <- df_clean csv ;; to_json_records d.

(** The records of a document, for statements about the output records. *)
Definition records (doc : json number) : list (json number) :=
  match doc with
  | JArray items => items
  | _ => []
  end.

(** ** Reading frames and records by label

    What the statements below say about a row is said through these: the
    cell a row holds under a label, whether it is non-null there, and the
    position a surviving row takes in the output. *)

(** The cell of row [r] under [label], for a header [labels]. *)
Definition row_get (labels : list string) (r : row) (label : string) : option cell :=
  match get_loc label labels with
  | Some i => nth_error r i
  | None => None
  end.

(** Row [r] holds a non-null value under [label]. *)
Definition holds (labels : list string) (r : row) (label : string) : bool :=
  match row_get labels r label with
  | Some v => notna v
  | None => false
  end.

(** Row [r] is non-null under every label of [subset]. *)
Definition complete (labels subset : list string) (r : row) : bool :=
  forallb (holds labels r) subset.

(** The cell of [r] under [label], read as NaN where the row has none. *)
Definition cell_at (labels : list string) (r : row) (label : string) : cell :=
  match row_get labels r label with
  | Some v => v
  | None => NaN
  end.

(** The cells of [r] under the labels of [key], in the order of [key]. *)
Definition project (labels key : list string) (r : row) : row :=
  map (cell_at labels r) key.

(** The number of rows before position [i] that [keep] retains: the
    position row [i] takes among the retained rows. *)
Definition rank (keep : row -> bool) (rows : list row) (i : nat) : nat :=
  length (filter keep (firstn i rows)).

(** The null check of the script on a row of the loaded frame [csv]: the row
    is non-null under every label of [dropna_subset]. *)
Definition keep (csv : frame) (r : row) : bool :=
  complete (columns csv) dropna_subset r.

(** The rows of the loaded frame that pass the null check, in their order. *)
Definition survivors (csv : frame) : list row :=
  filter (keep csv) (values csv).

(** A row of the loaded frame narrowed to the ten columns. *)
Definition narrow (csv : frame) (r : row) : row :=
  project (columns csv) columns_for_viz r.

(** The cell a reader of the document gets for the cell [v] of the frame. *)
Definition written (v : cell) : cell :=
  match v with
  | Num x =>
      match encode_double x with
      | Some y => Num y
      | None => NaN
      end
  | _ => v
  end.

(** Lookup in a record (a Python dict, a JSON object) by key. *)
Fixpoint assoc {A : Type} (key : string) (fields : list (string * A)) : option A :=
  match fields with
  | [] => None
  | (k, a) :: rest => if String.eqb key k then Some a else assoc key rest
  end.

Definition json_get (j : json number) (key : string) : option (json number) :=
  match j with
  | JObject fields => assoc key fields
  | _ => None
  end.

Definition json_keys (j : json number) : option (list string) :=
  match j with
  | JObject fields => Some (map fst fields)
  | _ => None
  end.

(** ** What [read_csv] guarantees

    The frame [read_csv] returns is rectangular and its header has no
    repeated label (repeated names of the file are renamed on load). *)
Definition well_formed (d : frame) : bool :=
  is_unique (columns d)
  && forallb (fun r => Nat.eqb (length r) (length (columns d))) (values d).

Definition has_columns (d : frame) (key : list string) : bool :=
  forallb (has_label (columns d)) key.

(** The texts [read_csv] reads as a missing value with its default
    [na_values] and [keep_default_na=True]; the empty field is one of them. *)
Definition na_values : list string :=
  [""; "#N/A"; "#N/A N/A"; "#NA"; "-1.#IND"; "-1.#QNAN"; "-NaN"; "-nan";
   "1.#IND"; "1.#QNAN"; "<NA>"; "N/A"; "NA"; "NULL"; "NaN"; "None"; "n/a";
   "nan"; "null"].

Definition na_free (v : cell) : bool :=
  match v with
  | Str s => negb (has_label na_values s)
  | _ => true
  end.

(** No text cell of the frame is one of the missing-value markers: they
    were all turned into NaN on load. *)
Definition na_filtered (d : frame) : bool :=
  forallb (forallb na_free) (values d).

(** A cell that is not the empty text. *)
Definition nonempty (v : cell) : bool :=
  match v with
  | Str s => negb (String.eqb s "")
  | _ => true
  end.

(** Row [r] holds a non-null, non-empty value under [label]. *)
Definition holds_nonempty (labels : list string) (r : row) (label : string) : bool :=
  match row_get labels r label with
  | Some v => notna v && nonempty v
  | None => false
  end.

End Frame.

(** ** Numbers: int64 and float64 cells, and how [to_json] writes a float

    A numeric column of a loaded frame is int64 or float64.  A finite float
    is a whole number of units of 2^-1074, the smallest positive float, so
    [Float64 u] stands for the float [u * 2^-1074] and two floats are equal
    exactly when their units are.  The float NaN is the cell [NaN]. *)

Inductive number64 : Type :=
| Int64 (z : Z)
| Float64 (units : Z)
| Infinity (negative : bool).

Open Scope Z_scope.

(** 1.0 in units. *)
Definition float_one : Z := 2 ^ 1074.

(** [u] units is a float64: its magnitude has at most 53 significant bits
    and is below 2^1024. *)
Definition representable (u : Z) : bool :=
  (Z.abs u mod 2 ^ Z.max 0 (Z.log2 (Z.abs u) - 52) =? 0)
  && (Z.abs u <? 2 ^ 2098).

(** [n / d] rounded to the nearest integer, a tie to the even one. *)
Definition half_even (n d : Z) : Z :=
  let q := n / d in
  let r := n mod d in
  if (d <? 2 * r) || ((2 * r =? d) && Z.odd q) then q + 1 else q.

(** IEEE rounding to nearest, ties to even, of the ratio [p / q] (with
    [0 <= p] and [0 < q]), in units: among the numbers with 53 significant
    bits, or the multiples of one unit for a subnormal result, the nearest
    to [p / q]. *)
Definition round_units (p q : Z) : Z :=
  let P := p * float_one in
  let sh := Z.max 0 (Z.log2 (P / q) - 52) in
  half_even P (q * 2 ^ sh) * 2 ^ sh.

(** The float a reader gets for the decimal numeral of value [p / q]
    (Python's [float], which [json.load] calls): the nearest float, infinity
    beyond the largest one. *)
Definition float_of_ratio (negative : bool) (p q : Z) : number64 :=
  let u := round_units p q in
  if 2 ^ 2098 <=? u then Infinity negative
  else Float64 (if negative then - u else u).

(** The bounds outside which the encoder leaves fixed notation, in units:
    [(double)1e16 - 1], which is 1e16 as a float, and the float 1e-15. *)
Definition thres_max : Z := 10 ^ 16 * float_one.
Definition thres_min : Z := round_units 1 (10 ^ 15).

(** Fixed notation for the positive float of [u] units: the whole part, and
    the fraction times [10 ^ precision] computed as a float product and
    rounded to an integer, up when the rest is above one half, or is one
    half and the integer is odd or zero.  The result [n] stands for the
    decimal [n / 10 ^ precision]. *)
Definition fixed_notation (precision u : Z) : Z :=
  let pow10 := 10 ^ precision in
  let whole := u / float_one in
  let tmp := round_units ((u mod float_one) * pow10) float_one in
  let frac := tmp / float_one in
  let diff2 := 2 * (tmp mod float_one) in
  let frac' :=
    if (float_one <? diff2)
       || ((diff2 =? float_one) && ((frac =? 0) || Z.odd frac))
    then frac + 1 else frac in
  whole * pow10 + frac'.

Definition at_least_pow10 (p q d : Z) : bool :=
  if 0 <=? d then 10 ^ d * q <=? p else q <=? p * 10 ^ (- d).

(** The largest [d] with [10 ^ d <= p / q], searched upwards from [d]. *)
Fixpoint log10_from (fuel : nat) (d p q : Z) : Z :=
  match fuel with
  | O => d
  | S fuel' =>
      if at_least_pow10 p q (d + 1) then log10_from fuel' (d + 1) p q else d
  end.

(** [printf] with [%.<digits>g]: the decimal of [digits] significant digits
    nearest to [p / q], as a ratio. *)
Definition significant (digits p q : Z) : Z * Z :=
  let d := log10_from 800 (-400) p q in
  let s := d - (digits - 1) in
  let n := half_even (p * 10 ^ Z.max 0 (- s)) (q * 10 ^ Z.max 0 s) in
  (n * 10 ^ Z.max 0 s, 10 ^ Z.max 0 (- s)).

(** The decimal written for the positive float of [u] units, as a ratio:
    fixed notation, or [precision] significant digits for a float above
    [thres_max] or below [thres_min]. *)
Definition write_double (precision u : Z) : Z * Z :=
  if (thres_max <? u) || ((0 <? u) && (u <? thres_min))
  then significant precision u float_one
  else (fixed_notation precision u, 10 ^ precision).

(** What a reader gets for a numeric cell: an integer in full, a float as
    the float nearest to the decimal written for it, nothing (null) for a
    float that is not finite. *)
Definition encode_number (precision : Z) (x : number64) : option number64 :=
  match x with
  | Int64 z => Some (Int64 z)
  | Infinity _ => None
  | Float64 u =>
      let (n, d) := write_double precision (Z.abs u) in
      Some (float_of_ratio (u <? 0) n d)
  end.

(** The float of [u] units has at most ten decimal places: it is a multiple
    of 2^-10. *)
Definition ten_places (u : Z) : bool := u mod 2 ^ 1064 =? 0.

(** The whole number [z] and the fraction [n / 2 ^ k] as floats, and the
    float read from the decimal [digits / 10 ^ places]. *)
Definition whole (z : Z) : number64 := Float64 (z * float_one).

Definition dyadic (n k : Z) : number64 := Float64 (n * 2 ^ (1074 - k)).


Close Scope Z_scope.

(** The encoder of the script: [to_json] is called without
    [double_precision], so with its default of ten. *)
#[global]
Instance double_precision_10 : Encoder number64 := encode_number 10.

(** A cell that the script's [to_json] writes so that it reads back as it
    was: a null, a text, a boolean, an integer, and a float of at most ten
    decimal places and of magnitude at most 1e16. *)
Definition written_exactly (v : value number64) : bool :=
  match v with
  | Num (Float64 u) =>
      representable u && Z.leb (Z.abs u) thres_max && ten_places u
  | Num (Infinity _) => false
  | _ => true
  end.

(** A frame of int64 columns: every number is written in full. *)
#[global]
Instance int64_columns : Encoder Z := Some.

(** ** Sample frames

    A cut of the survey with the header in another order than
    [columns_for_viz] and one column the script does not use. *)

Definition survey_header : list string :=
  ["ResponseId"; "Country"; "Age"; "AISelect"; "YearsCodePro"; "Currency";
   "CompTotal"; "LanguageHaveWorkedWith"; "NEWCollabToolsHaveWorkedWith";
   "OpSysProfessional use"; "ConvertedCompYearly"].

(** The row of the scenario: everything filled in but ConvertedCompYearly. *)
Definition row_scenario : list (value number64) :=
  [Num (whole 1); Str "USA"; Str "25-34"; Str "Yes"; Str "5"; Str "USD";
   Str "90000"; Str "Python"; Str "VS Code"; Str "Windows"; NaN].

(** A row with no answer to AISelect and every other cell filled in. *)
Definition row_no_ai : list (value number64) :=
  [Num (whole 2); Str "Germany"; Str "35-44"; NaN; Str "12"; Str "EUR";
   Num (whole 70000); Str "Rust"; Str "Vim"; Str "Ubuntu"; Num (whole 75000)].

(** A row with no Country. *)
Definition row_no_country : list (value number64) :=
  [Num (whole 3); NaN; Str "18-24"; Str "No"; Str "1"; Str "INR";
   Num (whole 800000); Str "Java"; Str "IntelliJ IDEA"; Str "Windows";
   Num (whole 9600)].

(** A row with every cell filled in. *)
Definition row_full : list (value number64) :=
  [Num (whole 4); Str "France"; Str "45-54"; Str "No"; Str "20"; Str "EUR";
   Num (whole 65000); Str "OCaml"; Str "Emacs"; Str "Debian";
   Num (whole 69000)].


Definition survey : DataFrame number64 :=
  mkFrame survey_header [row_scenario; row_no_ai; row_no_country; row_full].

(** The survey with only the row that has no AISelect. *)
Definition survey_no_ai : DataFrame number64 :=
  mkFrame survey_header [row_no_ai].

(** The survey with only its two complete rows. *)
Definition survey_complete : DataFrame number64 :=
  mkFrame survey_header [row_scenario; row_full].


(** A file whose header lost the AISelect column. *)
Definition survey_drifted : DataFrame number64 :=
  mkFrame
    ["ResponseId"; "Country"; "Age"; "YearsCodePro"; "Currency"; "CompTotal";
     "LanguageHaveWorkedWith"; "NEWCollabToolsHaveWorkedWith";
     "OpSysProfessional use"; "ConvertedCompYearly"]
    [[Num (whole 1); Str "USA"; Str "25-34"; Str "5"; Str "USD"; Str "90000";
      Str "Python"; Str "VS Code"; Str "Windows"; NaN]].

(** The survey as another export would give it: the header in another
    order, without ResponseId and with a MainBranch column. *)
Definition survey_reordered : DataFrame number64 :=
  mkFrame
    ["AISelect"; "Age"; "MainBranch"; "YearsCodePro"; "Country"; "Currency";
     "CompTotal"; "ConvertedCompYearly"; "LanguageHaveWorkedWith";
     "NEWCollabToolsHaveWorkedWith"; "OpSysProfessional use"]
    [[Str "Yes"; Str "25-34"; Str "Developer"; Str "5"; Str "USA"; Str "USD";
      Str "90000"; NaN; Str "Python"; Str "VS Code"; Str "Windows"];
     [NaN; Str "35-44"; Str "Developer"; Str "12"; Str "Germany"; Str "EUR";
      Num (whole 70000); Num (whole 75000); Str "Rust"; Str "Vim";
      Str "Ubuntu"];
     [Str "No"; Str "18-24"; Str "Student"; Str "1"; NaN; Str "INR";
      Num (whole 800000); Num (whole 9600); Str "Java"; Str "IntelliJ IDEA";
      Str "Windows"];
     [Str "No"; Str "45-54"; NaN; Str "20"; Str "France"; Str "EUR";
      Num (whole 65000); Num (whole 69000); Str "OCaml"; Str "Emacs";
      Str "Debian"]].




(** * Facts about the index lookups *)

Lemma has_label_In (labels : list string) (k : string) :
  has_label labels k = true <-> In k labels.
Proof.
  unfold has_label. rewrite existsb_exists. split.
  - intros [x [Hin Heq]]. apply String.eqb_eq in Heq. now subst x.
  - intros Hin. exists k. split; [assumption | apply String.eqb_refl].
Qed.

Lemma has_label_notin (labels : list string) (k : string) :
  has_label labels k = false <-> ~ In k labels.
Proof.
  rewrite <- has_label_In. destruct (has_label labels k); split; congruence.
Qed.

Lemma has_label_cons (l k : string) (rest : list string) :
  has_label (l :: rest) k = String.eqb k l || has_label rest k.
Proof. reflexivity. Qed.

Lemma is_unique_NoDup (labels : list string) :
  is_unique labels = true <-> NoDup labels.
Proof.
  induction labels as [| l rest IH]; simpl.
  - split; [constructor | reflexivity].
  - rewrite andb_true_iff, negb_true_iff, has_label_notin, IH. split.
    + intros [Hnotin Hrest]. now constructor.
    + intros H. inversion H; subst. now split.
Qed.

Lemma get_locs_absent (k : string) (labels : list string) (i : nat) :
  has_label labels k = false -> get_locs k labels i = [].
Proof.
  revert i. induction labels as [| l rest IH]; intros i H; simpl.
  - reflexivity.
  - rewrite has_label_cons in H. apply orb_false_iff in H as [Hk Hrest].
    rewrite Hk. now apply IH.
Qed.

Lemma get_locs_present (k : string) (labels : list string) (i : nat) :
  has_label labels k = true -> get_locs k labels i <> [].
Proof.
  revert i. induction labels as [| l rest IH]; intros i H; simpl.
  - discriminate H.
  - rewrite has_label_cons in H. destruct (String.eqb k l).
    + discriminate.
    + now apply IH.
Qed.

Lemma get_loc_absent (k : string) (labels : list string) :
  has_label labels k = false -> get_loc k labels = None.
Proof.
  induction labels as [| l rest IH]; intros H; simpl.
  - reflexivity.
  - rewrite has_label_cons in H. apply orb_false_iff in H as [Hk Hrest].
    rewrite Hk, (IH Hrest). reflexivity.
Qed.

Lemma get_loc_present (k : string) (labels : list string) :
  has_label labels k = true ->
  exists j, get_loc k labels = Some j /\ j < length labels /\ nth j labels "" = k.
Proof.
  induction labels as [| l rest IH]; intros H; simpl.
  - discriminate H.
  - rewrite has_label_cons in H. destruct (String.eqb k l) eqn:Hk.
    + apply String.eqb_eq in Hk. exists 0. repeat split; [lia | now subst].
    + destruct (IH H) as [j [Hj [Hlt Hnth]]]. exists (S j).
      rewrite Hj. repeat split; [lia | assumption].
Qed.

Lemma get_loc_bound (k : string) (labels : list string) (j : nat) :
  get_loc k labels = Some j -> j < length labels /\ nth j labels "" = k.
Proof.
  intros Hj. destruct (has_label labels k) eqn:Hk.
  - destruct (get_loc_present k labels Hk) as [j' [Hj' H]]. congruence.
  - rewrite (get_loc_absent k labels Hk) in Hj. discriminate.
Qed.

Lemma get_locs_unique (k : string) (labels : list string) (i j : nat) :
  is_unique labels = true -> get_loc k labels = Some j ->
  get_locs k labels i = [i + j].
Proof.
  revert i j. induction labels as [| l rest IH]; intros i j Hu Hj; simpl in *.
  - discriminate.
  - apply andb_true_iff in Hu as [Hl Hu]. apply negb_true_iff in Hl.
    destruct (String.eqb k l) eqn:Hk.
    + apply String.eqb_eq in Hk. subst l. injection Hj as <-.
      rewrite (get_locs_absent k rest (S i) Hl). f_equal. lia.
    + destruct (get_loc k rest) as [j' |] eqn:Hj'; [| discriminate].
      injection Hj as <-. rewrite (IH (S i) j' Hu eq_refl). f_equal. lia.
Qed.

Lemma found_app (a b : list (option nat)) :
  found (a ++ b) = found a ++ found b.
Proof.
  induction a as [| [i |] a IH]; simpl; [reflexivity | now rewrite IH | assumption].
Qed.

Lemma found_map_Some (locs : list nat) : found (map Some locs) = locs.
Proof. induction locs as [| i locs IH]; simpl; [reflexivity | now rewrite IH]. Qed.

Lemma missing_map_Some (locs : list nat) :
  existsb is_missing (map Some locs) = false.
Proof. induction locs as [| i locs IH]; simpl; [reflexivity | assumption]. Qed.

(** The indexer has a missing entry exactly when a requested label is not
    in the index. *)
Lemma indexer_missing (labels target : list string) :
  existsb is_missing (get_indexer_for labels target)
  = negb (forallb (has_label labels) target).
Proof.
  unfold get_indexer_for. induction target as [| k rest IH].
  - reflexivity.
  - cbn [flat_map forallb]. rewrite existsb_app, IH.
    destruct (has_label labels k) eqn:Hk.
    + pose proof (get_locs_present k labels 0 Hk) as Hne.
      destruct (get_locs k labels 0) as [| i locs] eqn:E; [congruence |].
      now rewrite missing_map_Some.
    + now rewrite (get_locs_absent k labels 0 Hk).
Qed.

Lemma not_found_nil (labels target : list string) :
  not_found labels target = [] <-> forallb (has_label labels) target = true.
Proof.
  unfold not_found. induction target as [| k rest IH]; simpl.
  - tauto.
  - destruct (has_label labels k); simpl.
    + exact IH.
    + split; discriminate.
Qed.

(** * Facts about the frame operations *)

Section Facts.

Context {number : Type} {encoder : Encoder number}.

Local Abbreviation cell := (value number).
Local Abbreviation row := (list (value number)).
Local Abbreviation frame := (DataFrame number).

Lemma holds_cell_at (labels : list string) (r : row) (k : string) :
  holds labels r k = notna (cell_at labels r k).
Proof. unfold holds, cell_at. now destruct (row_get labels r k). Qed.

Lemma row_get_cell_at (labels : list string) (r : row) (k : string) :
  has_label labels k = true -> length r = length labels ->
  row_get labels r k = Some (cell_at labels r k).
Proof.
  intros Hk Hr. unfold cell_at, row_get.
  destruct (get_loc_present k labels Hk) as [j [Hj [Hlt _]]]. rewrite Hj.
  destruct (nth_error r j) eqn:E; [reflexivity |].
  apply nth_error_None in E. lia.
Qed.

Lemma take_found (labels key : list string) (r : row) :
  is_unique labels = true -> forallb (has_label labels) key = true ->
  length r = length labels ->
  take (found (get_indexer_for labels key)) r = project labels key r.
Proof.
  intros Hu Hkey Hr. unfold get_indexer_for, project, take.
  induction key as [| k rest IH]; [reflexivity |].
  cbn [flat_map forallb map] in *. apply andb_true_iff in Hkey as [Hk Hrest].
  destruct (get_loc_present k labels Hk) as [j [Hj [Hlt _]]].
  rewrite (get_locs_unique k labels 0 j Hu Hj), found_app, map_app, (IH Hrest).
  cbn [map found app Nat.add]. f_equal.
  unfold cell_at, row_get. rewrite Hj.
  rewrite (nth_error_nth' r NaN); [reflexivity | lia].
Qed.

Lemma take_labels_found (labels key : list string) :
  is_unique labels = true -> forallb (has_label labels) key = true ->
  take_labels (found (get_indexer_for labels key)) labels = key.
Proof.
  intros Hu Hkey. unfold get_indexer_for, take_labels.
  induction key as [| k rest IH]; [reflexivity |].
  cbn [flat_map forallb map] in *. apply andb_true_iff in Hkey as [Hk Hrest].
  destruct (get_loc_present k labels Hk) as [j [Hj [Hlt Hnth]]].
  rewrite (get_locs_unique k labels 0 j Hu Hj), found_app, map_app, (IH Hrest).
  cbn [map found app Nat.add]. now rewrite Hnth.
Qed.

Lemma loc_mask_filter (p : row -> bool) (rows : list row) :
  loc_mask (map p rows) rows = filter p rows.
Proof.
  induction rows as [| r rows IH]; simpl; [reflexivity |].
  rewrite IH. reflexivity.
Qed.

Lemma filter_idem {A : Type} (p : A -> bool) (l : list A) :
  filter p (filter p l) = filter p l.
Proof.
  induction l as [| a l IH]; simpl; [reflexivity |].
  destruct (p a) eqn:E; simpl; [rewrite E; now f_equal | assumption].
Qed.

Lemma filter_map_swap {A B : Type} (f : A -> B) (p : B -> bool) (l : list A) :
  filter p (map f l) = map f (filter (fun a => p (f a)) l).
Proof.
  induction l as [| a l IH]; simpl; [reflexivity |].
  destruct (p (f a)); simpl; now rewrite IH.
Qed.

Lemma forallb_map_comp {A B : Type} (f : A -> B) (p : B -> bool) (l : list A) :
  forallb p (map f l) = forallb (fun a => p (f a)) l.
Proof.
  induction l as [| a l IH]; simpl; [reflexivity | now rewrite IH].
Qed.

Lemma forallb_pointwise {A : Type} (p q : A -> bool) (l : list A) :
  (forall a, p a = q a) -> forallb p l = forallb q l.
Proof.
  intros H. induction l as [| a l IH]; simpl; [reflexivity | now rewrite H, IH].
Qed.

(** What [dropna] computes when every label of the subset is in the header,
    whatever the shape of the frame. *)
Lemma dropna_ok (subset : list string) (d : frame) :
  forallb (has_label (columns d)) subset = true ->
  dropna subset d
  = Ok (mkFrame (columns d)
          (filter
             (fun r => forallb notna
                         (take (found (get_indexer_for (columns d) subset)) r))
             (values d))).
Proof.
  intros Hs. unfold dropna. rewrite indexer_missing, Hs. cbn [negb].
  unfold all_notna. rewrite map_map, loc_mask_filter. reflexivity.
Qed.

Lemma dropna_raise (subset : list string) (d : frame) :
  forallb (has_label (columns d)) subset = false ->
  dropna subset d = Raise (KeyError (not_found (columns d) subset)).
Proof.
  intros Hs. unfold dropna. now rewrite indexer_missing, Hs.
Qed.

Lemma shape_forall (d : frame) :
  well_formed d = true ->
  is_unique (columns d) = true
  /\ forall r, In r (values d) -> length r = length (columns d).
Proof.
  unfold well_formed. intros H. apply andb_true_iff in H as [Hu Hs].
  split; [assumption |]. intros r Hr.
  rewrite forallb_forall in Hs. now apply Nat.eqb_eq, Hs.
Qed.

(** On a frame as loaded, [dropna] keeps the rows that are non-null under
    every label of the subset. *)
Lemma dropna_spec (subset : list string) (d : frame) :
  well_formed d = true -> has_columns d subset = true ->
  dropna subset d
  = Ok (mkFrame (columns d) (filter (complete (columns d) subset) (values d))).
Proof.
  intros Hwf Hs. destruct (shape_forall d Hwf) as [Hu Hshape].
  rewrite (dropna_ok subset d Hs). do 2 f_equal.
  apply filter_ext_in. intros r Hr.
  rewrite (take_found _ _ r Hu Hs (Hshape r Hr)).
  unfold project, complete. rewrite forallb_map_comp.
  apply forallb_pointwise. intros k. now rewrite holds_cell_at.
Qed.

(** On a frame as loaded, [df[key]] is the frame of the requested columns
    in the requested order. *)
Lemma getitem_spec (key : list string) (d : frame) :
  well_formed d = true -> has_columns d key = true ->
  getitem d key = Ok (mkFrame key (map (project (columns d) key) (values d))).
Proof.
  intros Hwf Hk. destruct (shape_forall d Hwf) as [Hu Hshape].
  unfold getitem, get_indexer_strict. rewrite indexer_missing.
  unfold has_columns in Hk. rewrite Hk. cbn [negb bind].
  rewrite (take_labels_found _ _ Hu Hk). do 2 f_equal.
  apply map_ext_in. intros r Hr. now apply take_found; [| | apply Hshape].
Qed.

Lemma getitem_raise (key : list string) (d : frame) :
  has_columns d key = false ->
  getitem d key
  = Raise (KeyError (unique (not_found (columns d) key))).
Proof.
  intros Hk. unfold getitem, get_indexer_strict. rewrite indexer_missing.
  unfold has_columns in Hk. now rewrite Hk.
Qed.

Lemma project_length (labels key : list string) (r : row) :
  length (project labels key r) = length key.
Proof. unfold project. apply length_map. Qed.

(** Reading a projected row under one of the projected labels gives the
    cell the row had under that label. *)
Lemma cell_at_project (labels key : list string) (r : row) (k : string) :
  has_label key k = true ->
  cell_at key (project labels key r) k = cell_at labels r k.
Proof.
  intros Hk. unfold cell_at at 1. unfold row_get, project.
  induction key as [| l rest IH]; [discriminate Hk |].
  rewrite has_label_cons in Hk. cbn [get_loc map].
  destruct (String.eqb k l) eqn:E.
  - apply String.eqb_eq in E. now subst l.
  - cbn [orb] in Hk. destruct (get_loc_present k rest Hk) as [j [Hj _]].
    specialize (IH Hk). rewrite Hj in IH |- *. exact IH.
Qed.

Lemma complete_project (labels key subset : list string) (r : row) :
  forallb (has_label key) subset = true ->
  complete key subset (project labels key r) = complete labels subset r.
Proof.
  unfold complete. induction subset as [| k rest IH]; intros H; simpl.
  - reflexivity.
  - simpl in H. apply andb_true_iff in H as [Hk Hrest].
    rewrite (IH Hrest), !holds_cell_at, (cell_at_project _ _ _ _ Hk).
    reflexivity.
Qed.

Lemma well_formed_project (labels key : list string) (rows : list row) :
  is_unique key = true ->
  well_formed (mkFrame key (map (project labels key) rows)) = true.
Proof.
  intros Hu. unfold well_formed. cbn [columns values]. rewrite Hu.
  cbn [andb]. rewrite forallb_map_comp. apply forallb_forall. intros r _.
  rewrite project_length. apply Nat.eqb_refl.
Qed.

(** ** The three stages of the script on a frame as loaded *)

Lemma df_spec (csv : frame) :
  well_formed csv = true -> has_columns csv columns_for_viz = true ->
  df csv = Ok (mkFrame columns_for_viz (map (narrow csv) (values csv))).
Proof. intros Hwf Hc. unfold df. now apply getitem_spec. Qed.

Lemma df_clean_spec (csv : frame) :
  well_formed csv = true -> has_columns csv columns_for_viz = true ->
  df_clean csv = Ok (mkFrame columns_for_viz (map (narrow csv) (survivors csv))).
Proof.
  intros Hwf Hc. unfold df_clean. rewrite (df_spec csv Hwf Hc). cbn [bind].
  rewrite dropna_spec;
    [| now apply well_formed_project | reflexivity].
  cbn [columns values]. do 2 f_equal.
  rewrite filter_map_swap. f_equal. apply filter_ext. intros r.
  unfold narrow, keep. now apply complete_project.
Qed.

Lemma data_json_spec (csv : frame) :
  well_formed csv = true -> has_columns csv columns_for_viz = true ->
  data_json csv
  = Ok (JArray (map (to_record columns_for_viz)
                  (map (narrow csv) (survivors csv)))).
Proof.
  intros Hwf Hc. unfold data_json. rewrite (df_clean_spec csv Hwf Hc).
  reflexivity.
Qed.

(** ** Reading the document back *)

Lemma of_to_json_value (v : cell) :
  of_json_value (to_json_value v) = Some (written v).
Proof.
  destruct v as [| s | x | b]; try reflexivity.
  cbn. now destruct (encode_double x).
Qed.


Lemma read_fields_record (labels : list string) (r : row) :
  read_fields (combine labels (map to_json_value r))
  = Some (combine labels (map written r)).
Proof.
  revert r. induction labels as [| l labels IH]; intros r; [reflexivity |].
  destruct r as [| v r]; [reflexivity |].
  cbn [map combine read_fields]. now rewrite of_to_json_value, IH.
Qed.

Lemma json_load_records (labels : list string) (rows : list row) :
  json_load (JArray (map (to_record labels) rows))
  = Some (map (fun r => combine labels (map written r)) rows).
Proof.
  cbn [json_load]. induction rows as [| r rows IH]; [reflexivity |].
  cbn [map read_items read_record to_record].
  now rewrite read_fields_record, IH.
Qed.

Lemma assoc_combine_map {A : Type} (f : string -> A) (key : list string) (k : string) :
  has_label key k = true -> assoc k (combine key (map f key)) = Some (f k).
Proof.
  induction key as [| l rest IH]; intros Hk; [discriminate Hk |].
  rewrite has_label_cons in Hk. cbn [map combine assoc].
  destruct (String.eqb k l) eqn:E.
  - apply String.eqb_eq in E. now subst l.
  - now apply IH.
Qed.

(** ** Positions among the retained rows *)

Lemma rank_cons (p : row -> bool) (a : row) (rows : list row) (i : nat) :
  rank p (a :: rows) (S i) = (if p a then 1 else 0) + rank p rows i.
Proof. unfold rank. cbn [firstn filter]. now destruct (p a). Qed.

Lemma rank_nth (p : row -> bool) (rows : list row) (i : nat) (r : row) :
  nth_error rows i = Some r -> p r = true ->
  nth_error (filter p rows) (rank p rows i) = Some r.
Proof.
  revert i. induction rows as [| a rows IH]; intros i Hi Hp.
  - destruct i; discriminate Hi.
  - destruct i as [| i].
    + injection Hi as ->. unfold rank. cbn. now rewrite Hp.
    + rewrite rank_cons. cbn [nth_error] in Hi. cbn [filter].
      destruct (p a); [apply (IH i Hi Hp) | apply (IH i Hi Hp)].
Qed.

Lemma rank_lt (p : row -> bool) (rows : list row) (i j : nat) (r : row) :
  i < j -> nth_error rows i = Some r -> p r = true ->
  rank p rows i < rank p rows j.
Proof.
  revert i j. induction rows as [| a rows IH]; intros i j Hij Hi Hp.
  - destruct i; discriminate Hi.
  - destruct j as [| j]; [lia |]. destruct i as [| i].
    + injection Hi as ->. rewrite rank_cons, Hp. unfold rank. cbn. lia.
    + rewrite !rank_cons. cbn [nth_error] in Hi.
      assert (rank p rows i < rank p rows j) by (apply (IH i j); [lia | assumption..]).
      lia.
Qed.

Lemma filter_all_length {A : Type} (p : A -> bool) (l : list A) :
  length (filter p l) = length l <-> forallb p l = true.
Proof.
  induction l as [| a l IH]; simpl.
  - tauto.
  - pose proof (filter_length_le p l) as Hle. destruct (p a); simpl.
    + rewrite <- IH. lia.
    + split; [lia | discriminate].
Qed.

(** ** Rows and records of the output *)

Lemma has_columns_label (d : frame) (key : list string) (k : string) :
  has_columns d key = true -> In k key -> has_label (columns d) k = true.
Proof.
  unfold has_columns. rewrite forallb_forall. intros H Hk. now apply H.
Qed.

Lemma complete_forall (labels subset : list string) (r : row) :
  complete labels subset r = true
  <-> forall k, In k subset -> holds labels r k = true.
Proof. unfold complete. apply forallb_forall. Qed.

(** Under a label of the header, a row of the right length is non-null
    exactly when its cell there is not NaN. *)
Lemma holds_not_null (labels : list string) (r : row) (k : string) :
  has_label labels k = true -> length r = length labels ->
  (holds labels r k = true <-> row_get labels r k <> Some NaN).
Proof.
  intros Hk Hr. rewrite holds_cell_at, (row_get_cell_at labels r k Hk Hr).
  destruct (cell_at labels r k); cbn; split; congruence.
Qed.

Lemma row_get_narrow (csv : frame) (r : row) (k : string) :
  has_label columns_for_viz k = true ->
  row_get columns_for_viz (narrow csv r) k = Some (cell_at (columns csv) r k).
Proof.
  intros Hk. unfold narrow.
  rewrite (row_get_cell_at columns_for_viz _ k Hk (project_length _ _ _)).
  now rewrite cell_at_project.
Qed.

Lemma holds_narrow (csv : frame) (r : row) (k : string) :
  has_label columns_for_viz k = true ->
  holds columns_for_viz (narrow csv r) k = holds (columns csv) r k.
Proof.
  intros Hk. unfold narrow. now rewrite !holds_cell_at, cell_at_project.
Qed.

Lemma json_get_record (labels key : list string) (r : row) (k : string) :
  has_label key k = true ->
  json_get (to_record key (project labels key r)) k
  = Some (to_json_value (cell_at labels r k)).
Proof.
  intros Hk. unfold to_record, project. cbn [json_get]. rewrite map_map.
  now apply (assoc_combine_map (fun k => to_json_value (cell_at labels r k))).
Qed.


Lemma fst_combine {A : Type} (key : list string) (l : list A) :
  length l = length key -> map fst (combine key l) = key.
Proof.
  revert l. induction key as [| k key IH]; intros l Hl; [reflexivity |].
  destruct l as [| a l]; [discriminate Hl |].
  cbn [combine map fst]. f_equal. apply IH. now injection Hl.
Qed.

Lemma json_keys_record (labels key : list string) (r : row) :
  json_keys (to_record key (project labels key r)) = Some key.
Proof.
  unfold to_record. cbn [json_keys]. f_equal. apply fst_combine.
  now rewrite length_map, project_length.
Qed.

(** In a frame whose missing-value markers were all read as NaN, a non-null
    cell is never the empty text. *)
Lemma na_free_nonempty (v : cell) : na_free v = true -> nonempty v = true.
Proof.
  destruct v as [| s | x | b]; cbn; try reflexivity.
  destruct (String.eqb s "") eqn:E; [| reflexivity].
  apply String.eqb_eq in E. subst s. discriminate.
Qed.

Lemma holds_nonempty_holds (d : frame) (r : row) (k : string) :
  na_filtered d = true -> In r (values d) ->
  holds_nonempty (columns d) r k = holds (columns d) r k.
Proof.
  intros Hna Hr. unfold holds_nonempty, holds.
  destruct (row_get (columns d) r k) as [v |] eqn:E; [| reflexivity].
  unfold row_get in E. destruct (get_loc k (columns d)); [| discriminate].
  apply nth_error_In in E. unfold na_filtered in Hna.
  rewrite forallb_forall in Hna. specialize (Hna r Hr).
  rewrite forallb_forall in Hna. rewrite (na_free_nonempty v (Hna v E)).
  apply andb_true_r.
Qed.

Lemma records_data_json (csv : frame) :
  well_formed csv = true -> has_columns csv columns_for_viz = true ->
  exists doc,
    data_json csv = Ok doc
    /\ doc = JArray (records doc)
    /\ records doc
       = map (to_record columns_for_viz) (map (narrow csv) (survivors csv)).
Proof.
  intros Hwf Hc. eexists. split; [now apply data_json_spec |].
  split; reflexivity.
Qed.

Lemma nth_survivor (csv : frame) (i : nat) (r : row) :
  nth_error (values csv) i = Some r -> keep csv r = true ->
  nth_error (survivors csv) (rank (keep csv) (values csv) i) = Some r.
Proof. intros Hi Hk. now apply rank_nth. Qed.

Lemma forallb_false_witness {A : Type} (p : A -> bool) (l : list A) :
  forallb p l = false -> exists a, In a l /\ p a = false.
Proof.
  induction l as [| a l IH]; simpl; [discriminate |].
  destruct (p a) eqn:E; intros H.
  - destruct (IH H) as [b [Hb Hp]]. exists b. auto.
  - exists a. auto.
Qed.

Lemma nth_error_output (csv : frame) (i : nat) (r : row) :
  nth_error (values csv) i = Some r -> keep csv r = true ->
  nth_error (map (narrow csv) (survivors csv)) (rank (keep csv) (values csv) i)
  = Some (narrow csv r).
Proof.
  intros Hi Hk. now rewrite nth_error_map, (nth_survivor csv i r Hi Hk).
Qed.

(** * The properties of the script *)

(** C1 (amended).  The columns the filter requires to be non-null are the
    ten selected columns minus ConvertedCompYearly alone, nine columns with
    AISelect among them: the filtered frame holds, narrowed and in order,
    exactly the rows that are non-null under each of the nine; such a row
    whose ConvertedCompYearly is null is kept with that null, and no kept
    row has a null AISelect. *)
Theorem required_nonnull_columns (csv : frame) :
  well_formed csv = true -> has_columns csv columns_for_viz = true ->
  dropna_subset = remove string_dec "ConvertedCompYearly" columns_for_viz
  /\ exists out,
       df_clean csv = Ok out
       /\ values out
          = map (narrow csv)
              (filter (complete (columns csv) dropna_subset) (values csv))
       /\ (forall r, In r (values csv) ->
             (complete (columns csv) dropna_subset r = true
              <-> forall k, In k dropna_subset ->
                    row_get (columns csv) r k <> Some NaN))
       /\ (forall i r, nth_error (values csv) i = Some r ->
             complete (columns csv) dropna_subset r = true ->
             row_get (columns csv) r "ConvertedCompYearly" = Some NaN ->
             exists r',
               nth_error (values out) (rank (keep csv) (values csv) i) = Some r'
               /\ row_get columns_for_viz r' "ConvertedCompYearly" = Some NaN)
       /\ Forall (fun r' => row_get columns_for_viz r' "AISelect" <> Some NaN)
            (values out).
Proof.
  intros Hwf Hc. split; [reflexivity |].
  destruct (shape_forall csv Hwf) as [_ Hshape].
  eexists. split; [now apply df_clean_spec |]. cbn [values].
  split; [reflexivity |]. split; [| split].
  - intros r Hr. rewrite complete_forall. split; intros H k Hk.
    + apply holds_not_null; [| now apply Hshape | now apply H].
      apply (has_columns_label csv columns_for_viz); [assumption |].
      now apply has_label_In, (forallb_forall (has_label columns_for_viz) dropna_subset).
    + apply holds_not_null; [| now apply Hshape | now apply H].
      apply (has_columns_label csv columns_for_viz); [assumption |].
      now apply has_label_In, (forallb_forall (has_label columns_for_viz) dropna_subset).
  - intros i r Hi Hk Hnull. exists (narrow csv r).
    split; [now apply nth_error_output |].
    rewrite row_get_narrow by reflexivity. unfold cell_at. now rewrite Hnull.
  - apply Forall_forall. intros r' Hr'. apply in_map_iff in Hr' as [r [<- Hr]].
    apply filter_In in Hr as [Hr Hk].
    apply holds_not_null; [reflexivity | apply project_length |].
    rewrite holds_narrow by reflexivity.
    apply (proj1 (complete_forall _ _ _) Hk). cbn. tauto.
Qed.

(** On a frame whose empty fields and other missing-value markers were all
    read as NaN, the rows the filter keeps are also the rows that hold a
    non-empty value in every checked column. *)
Lemma nonnull_is_nonempty_after_load (csv : frame) :
  well_formed csv = true -> na_filtered csv = true ->
  has_columns csv columns_for_viz = true ->
  exists out,
    df_clean csv = Ok out
    /\ values out
       = map (narrow csv)
           (filter (fun r => forallb (holds_nonempty (columns csv) r) dropna_subset)
              (values csv)).
Proof.
  intros Hwf Hna Hc. eexists. split; [now apply df_clean_spec |].
  cbn [values]. f_equal. apply filter_ext_in. intros r Hr.
  unfold keep, complete. apply forallb_pointwise. intros k. symmetry.
  now apply holds_nonempty_holds.
Qed.


(** C3 (amended).  The output has at most as many records as the input has
    rows, and as many exactly when no input row has a null in one of the
    nine columns the filter checks, AISelect among them. *)
Theorem record_count (csv : frame) :
  well_formed csv = true -> has_columns csv columns_for_viz = true ->
  exists doc,
    data_json csv = Ok doc
    /\ length (records doc) <= length (values csv)
    /\ (length (records doc) = length (values csv)
        <-> forall r k, In r (values csv) ->
              In k ["Age"; "YearsCodePro"; "Country"; "Currency"; "CompTotal";
     "LanguageHaveWorkedWith"; "NEWCollabToolsHaveWorkedWith";
     "OpSysProfessional use"; "AISelect"] ->
              row_get (columns csv) r k <> Some NaN).
Proof.
  intros Hwf Hc. change ["Age"; "YearsCodePro"; "Country"; "Currency"; "CompTotal";
     "LanguageHaveWorkedWith"; "NEWCollabToolsHaveWorkedWith";
     "OpSysProfessional use"; "AISelect"] with dropna_subset.
  destruct (shape_forall csv Hwf) as [_ Hshape].
  destruct (records_data_json csv Hwf Hc) as [doc [Hdoc [_ Hrec]]].
  exists doc. split; [assumption |]. rewrite Hrec, !length_map.
  unfold survivors. split; [apply filter_length_le |].
  rewrite filter_all_length, forallb_forall.
  assert (forall k, In k dropna_subset -> has_label (columns csv) k = true) as Hl.
  { intros k Hk. apply (has_columns_label csv columns_for_viz); [assumption |].
    now apply has_label_In, (forallb_forall (has_label columns_for_viz) dropna_subset). }
  split.
  - intros H r k Hr Hk. apply holds_not_null; [now apply Hl | now apply Hshape |].
    specialize (H r Hr). unfold keep in H. rewrite complete_forall in H.
    now apply H.
  - intros H r Hr. unfold keep. rewrite complete_forall. intros k Hk.
    apply holds_not_null; [now apply Hl | now apply Hshape | now apply H].
Qed.

(** C4.  Surviving rows keep their relative order: when row [i] comes before
    row [j] in the input and both pass the null check, the record of row [i]
    comes before the record of row [j] in the output. *)
Theorem order_preserved (csv : frame) (i j : nat) (ri rj : row) :
  well_formed csv = true -> has_columns csv columns_for_viz = true ->
  i < j ->
  nth_error (values csv) i = Some ri -> nth_error (values csv) j = Some rj ->
  keep csv ri = true -> keep csv rj = true ->
  exists doc,
    data_json csv = Ok doc
    /\ rank (keep csv) (values csv) i < rank (keep csv) (values csv) j
    /\ nth_error (records doc) (rank (keep csv) (values csv) i)
       = Some (to_record columns_for_viz (narrow csv ri))
    /\ nth_error (records doc) (rank (keep csv) (values csv) j)
       = Some (to_record columns_for_viz (narrow csv rj)).
Proof.
  intros Hwf Hc Hij Hi Hj Hki Hkj.
  destruct (records_data_json csv Hwf Hc) as [doc [Hdoc [_ Hrec]]].
  exists doc. split; [assumption |]. split; [now apply (rank_lt _ _ i j ri) |].
  rewrite Hrec. split.
  - now rewrite nth_error_map, (nth_error_output csv i ri Hi Hki).
  - now rewrite nth_error_map, (nth_error_output csv j rj Hj Hkj).
Qed.

(** C5.  When the header holds the ten columns, the output is an array whose
    every record has the ten keys of [columns_for_viz], in that order, and
    no other key. *)
Theorem record_keys (csv : frame) :
  well_formed csv = true -> has_columns csv columns_for_viz = true ->
  exists doc,
    data_json csv = Ok doc
    /\ doc = JArray (records doc)
    /\ Forall (fun rec => json_keys rec = Some columns_for_viz) (records doc).
Proof.
  intros Hwf Hc.
  destruct (records_data_json csv Hwf Hc) as [doc [Hdoc [Harr Hrec]]].
  exists doc. split; [assumption |]. split; [assumption |].
  rewrite Hrec. apply Forall_forall. intros rec Hin.
  apply in_map_iff in Hin as [r' [<- Hr']].
  apply in_map_iff in Hr' as [r [<- _]]. apply json_keys_record.
Qed.

(** C6.  On a loaded frame the projection gives the frame of the ten listed
    columns in the listed order when all ten are in the header; it raises
    KeyError exactly when a requested column is not in the header, and the
    script lets that error through. *)
Theorem projector_columns_or_key_error (csv : frame) :
  well_formed csv = true ->
  (has_columns csv columns_for_viz = true ->
   exists d,
     df csv = Ok d
     /\ columns d = columns_for_viz
     /\ values d = map (project (columns csv) columns_for_viz) (values csv))
  /\ ((exists labels, df csv = Raise (KeyError labels))
      <-> exists k, In k columns_for_viz /\ ~ In k (columns csv))
  /\ (forall e, df csv = Raise e -> data_json csv = Raise e).
Proof.
  intros Hwf. split; [| split].
  - intros Hc. eexists. split; [now apply df_spec |]. split; reflexivity.
  - split.
    + intros [labels Hraise].
      destruct (has_columns csv columns_for_viz) eqn:Hc.
      * rewrite (df_spec csv Hwf Hc) in Hraise. discriminate.
      * destruct (forallb_false_witness _ _ Hc) as [k [Hk Habs]].
        exists k. split; [assumption | now apply has_label_notin].
    + intros [k [Hk Habs]]. eexists. apply getitem_raise.
      destruct (has_columns csv columns_for_viz) eqn:Hc; [| reflexivity].
      apply has_label_notin in Habs.
      now rewrite (has_columns_label csv _ k Hc Hk) in Habs.
  - intros e He. unfold data_json, df_clean. now rewrite He.
Qed.

(** C7 (amended).  The written document is an array with one record for
    each input row that is non-null in the nine columns the filter checks,
    AISelect among them, and reading it back gives that many records. *)
Theorem round_trip_length (csv : frame) :
  well_formed csv = true -> has_columns csv columns_for_viz = true ->
  exists doc recs,
    data_json csv = Ok doc
    /\ doc = JArray (records doc)
    /\ length (records doc)
       = length
           (filter
              (complete (columns csv)
                 ["Age"; "YearsCodePro"; "Country"; "Currency"; "CompTotal";
     "LanguageHaveWorkedWith"; "NEWCollabToolsHaveWorkedWith";
     "OpSysProfessional use"; "AISelect"])
              (values csv))
    /\ json_load doc = Some recs
    /\ length recs = length (records doc).
Proof.
  intros Hwf Hc. change ["Age"; "YearsCodePro"; "Country"; "Currency"; "CompTotal";
     "LanguageHaveWorkedWith"; "NEWCollabToolsHaveWorkedWith";
     "OpSysProfessional use"; "AISelect"] with dropna_subset.
  eexists. eexists. split; [now apply data_json_spec |].
  split; [reflexivity |]. cbn [records].
  split; [now rewrite !length_map |].
  split; [apply json_load_records | now rewrite !length_map].
Qed.

(** C8.  A row with Age 25-34, YearsCodePro 5, Country USA, Currency USD,
    CompTotal 90000, no ConvertedCompYearly, LanguageHaveWorkedWith Python,
    NEWCollabToolsHaveWorkedWith VS Code, OpSysProfessional use Windows and
    AISelect Yes is retained by the filter, and the ConvertedCompYearly
    field of its output record is null. *)
Theorem scenario_row_retained (csv : frame) (i : nat) (r : row) :
  well_formed csv = true -> has_columns csv columns_for_viz = true ->
  nth_error (values csv) i = Some r ->
  row_get (columns csv) r "Age" = Some (Str "25-34") ->
  row_get (columns csv) r "YearsCodePro" = Some (Str "5") ->
  row_get (columns csv) r "Country" = Some (Str "USA") ->
  row_get (columns csv) r "Currency" = Some (Str "USD") ->
  row_get (columns csv) r "CompTotal" = Some (Str "90000") ->
  row_get (columns csv) r "ConvertedCompYearly" = Some NaN ->
  row_get (columns csv) r "LanguageHaveWorkedWith" = Some (Str "Python") ->
  row_get (columns csv) r "NEWCollabToolsHaveWorkedWith" = Some (Str "VS Code") ->
  row_get (columns csv) r "OpSysProfessional use" = Some (Str "Windows") ->
  row_get (columns csv) r "AISelect" = Some (Str "Yes") ->
  exists out doc rec,
    df_clean csv = Ok out
    /\ nth_error (values out) (rank (keep csv) (values csv) i)
       = Some (narrow csv r)
    /\ data_json csv = Ok doc
    /\ nth_error (records doc) (rank (keep csv) (values csv) i) = Some rec
    /\ json_get rec "ConvertedCompYearly" = Some JNull.
Proof.
  intros Hwf Hc Hi Hage Hyears Hcountry Hcur Hcomp Hconv Hlang Htools Hos Hai.
  assert (keep csv r = true) as Hk.
  { unfold keep, complete, dropna_subset. cbn [forallb]. unfold holds.
    now rewrite Hage, Hyears, Hcountry, Hcur, Hcomp, Hlang, Htools, Hos, Hai. }
  destruct (records_data_json csv Hwf Hc) as [doc [Hdoc [_ Hrec]]].
  eexists. exists doc. eexists. split; [now apply df_clean_spec |].
  cbn [values]. split; [now apply nth_error_output |].
  split; [assumption |]. rewrite Hrec. split.
  - now rewrite nth_error_map, (nth_error_output csv i r Hi Hk).
  - unfold narrow. rewrite json_get_record by reflexivity.
    unfold cell_at. now rewrite Hconv.
Qed.


(** C10.  The filter is idempotent: dropping the rows with a null in the
    subset a second time gives what the first time gave, on every frame and
    for every subset, the one of the script included. *)
Theorem dropna_idempotent (subset : list string) (d : frame) :
  (d' <- dropna subset d ;; dropna subset d') = dropna subset d.
Proof.
  destruct (forallb (has_label (columns d)) subset) eqn:Hs.
  - rewrite (dropna_ok subset d Hs). cbn [bind].
    rewrite dropna_ok by exact Hs. cbn [columns values].
    now rewrite filter_idem.
  - now rewrite (dropna_raise subset d Hs).
Qed.

End Facts.

(** * Facts about the float encoder *)

Open Scope Z_scope.











Close Scope Z_scope.



(** * How the stages compose *)

Section Composition.

Context {number : Type} {encoder : Encoder number}.

Local Abbreviation cell := (value number).
Local Abbreviation row := (list (value number)).
Local Abbreviation frame := (DataFrame number).

Lemma filter_both {A : Type} (p q : A -> bool) (l : list A) :
  filter (fun a => p a && q a) l = filter q (filter p l).
Proof.
  induction l as [| a l IH]; simpl; [reflexivity |].
  destruct (p a); simpl; [destruct (q a); now rewrite IH | exact IH].
Qed.

Lemma filter_nil_iff {A : Type} (p : A -> bool) (l : list A) :
  filter p l = [] <-> forall a, In a l -> p a = false.
Proof.
  induction l as [| a l IH]; simpl.
  - split; [intros _ b [] | reflexivity].
  - destruct (p a) eqn:E.
    + split; [discriminate |]. intros H. rewrite (H a) in E; [discriminate | now left].
    + rewrite IH. split.
      * intros H b [<- | Hb]; [assumption | now apply H].
      * intros H b Hb. apply H. now right.
Qed.

Lemma indexer_app (labels s1 s2 : list string) :
  get_indexer_for labels (s1 ++ s2)
  = get_indexer_for labels s1 ++ get_indexer_for labels s2.
Proof. unfold get_indexer_for. apply flat_map_app. Qed.

Lemma has_columns_self (labels : list string) :
  forallb (has_label labels) labels = true.
Proof. apply forallb_forall. intros k Hk. now apply has_label_In. Qed.

Lemma has_columns_incl (d : frame) (key sub : list string) :
  has_columns d key = true -> forallb (has_label key) sub = true ->
  has_columns d sub = true.
Proof.
  unfold has_columns. rewrite !forallb_forall. intros Hk Hs k Hin.
  apply Hk. now apply has_label_In, Hs.
Qed.

Lemma well_formed_filter (p : row -> bool) (d : frame) :
  well_formed d = true ->
  well_formed (mkFrame (columns d) (filter p (values d))) = true.
Proof.
  unfold well_formed. cbn [columns values]. intros H.
  apply andb_true_iff in H as [Hu Hs]. rewrite Hu. cbn [andb].
  rewrite forallb_forall in *. intros r Hr. apply Hs.
  now apply filter_In in Hr as [Hr _].
Qed.

Lemma cell_at_tail (l k : string) (rest : list string) (v : cell) (r : row) :
  String.eqb k l = false ->
  cell_at (l :: rest) (v :: r) k = cell_at rest r k.
Proof.
  intros E. unfold cell_at, row_get. cbn [get_loc]. rewrite E.
  now destruct (get_loc k rest).
Qed.

(** Reading a row under its own header gives the row back. *)
Lemma project_self (labels : list string) (r : row) :
  is_unique labels = true -> length r = length labels ->
  project labels labels r = r.
Proof.
  revert r. induction labels as [| l rest IH]; intros r Hu Hr.
  - destruct r; [reflexivity | discriminate Hr].
  - destruct r as [| v r]; [discriminate Hr |].
    simpl in Hu. apply andb_true_iff in Hu as [Hl Hu].
    apply negb_true_iff in Hl. unfold project. cbn [map]. f_equal.
    + unfold cell_at, row_get. cbn [get_loc]. now rewrite String.eqb_refl.
    + rewrite <- (IH r Hu) at 2; [| now injection Hr]. unfold project.
      apply map_ext_in. intros k Hk. apply cell_at_tail.
      destruct (String.eqb k l) eqn:E; [| reflexivity].
      apply String.eqb_eq in E. subst k.
      apply has_label_In in Hk. congruence.
Qed.

(** X1.  Dropping the rows with a null under [s1 ++ s2] at once is dropping
    them under [s1] and then under [s2], when the header holds all the
    labels. *)
Theorem dropna_app (s1 s2 : list string) (d : frame) :
  forallb (has_label (columns d)) (s1 ++ s2) = true ->
  dropna (s1 ++ s2) d = (d' <- dropna s1 d ;; dropna s2 d').
Proof.
  intros H. pose proof H as H12. rewrite forallb_app in H12.
  apply andb_true_iff in H12 as [H1 H2].
  rewrite (dropna_ok (s1 ++ s2) d H), (dropna_ok s1 d H1). cbn [bind].
  rewrite dropna_ok by exact H2. cbn [columns values]. do 2 f_equal.
  rewrite <- filter_both. apply filter_ext. intros r.
  rewrite indexer_app, found_app. unfold take. now rewrite map_app, forallb_app.
Qed.

(** X2.  On a loaded frame with the ten columns, filtering first and
    projecting afterwards gives the frame the script computes by projecting
    first and filtering afterwards. *)
Theorem filter_then_project (csv : frame) :
  well_formed csv = true -> has_columns csv columns_for_viz = true ->
  (d <- dropna dropna_subset csv ;; getitem d columns_for_viz) = df_clean csv.
Proof.
  intros Hwf Hc. rewrite (df_clean_spec csv Hwf Hc).
  rewrite dropna_spec;
    [| assumption | now apply (has_columns_incl csv columns_for_viz)].
  cbn [bind]. rewrite getitem_spec;
    [reflexivity | now apply well_formed_filter | exact Hc].
Qed.

Lemma filter_all {A : Type} (p : A -> bool) (l : list A) :
  (forall a, In a l -> p a = true) -> filter p l = l.
Proof.
  induction l as [| a l IH]; intros H; simpl; [reflexivity |].
  rewrite (H a) by now left. f_equal. apply IH. intros b Hb. apply H. now right.
Qed.

Lemma map_fixed {A : Type} (f : A -> A) (l : list A) :
  (forall a, In a l -> f a = a) -> map f l = l.
Proof.
  induction l as [| a l IH]; intros H; simpl; [reflexivity |].
  rewrite (H a) by now left. f_equal. apply IH. intros b Hb. apply H. now right.
Qed.

(** X3.  The script's projection and filter change nothing on a frame they
    produced: run on [df_clean csv] they return it. *)
Theorem df_clean_fixpoint (csv out : frame) :
  well_formed csv = true -> has_columns csv columns_for_viz = true ->
  df_clean csv = Ok out -> df_clean out = Ok out.
Proof.
  intros Hwf Hc Hout. rewrite (df_clean_spec csv Hwf Hc) in Hout.
  injection Hout as <-.
  set (rows := map (narrow csv) (survivors csv)).
  rewrite df_clean_spec; [| now apply well_formed_project | reflexivity].
  do 2 f_equal. unfold survivors. cbn [values].
  rewrite filter_all.
  - apply map_fixed. intros r' Hr'. unfold narrow. cbn [columns].
    apply in_map_iff in Hr' as [r [<- _]].
    apply project_self; [reflexivity | apply project_length].
  - intros r' Hr'. apply in_map_iff in Hr' as [r [<- Hr]].
    apply filter_In in Hr as [_ Hk]. unfold keep, narrow. cbn [columns].
    now rewrite complete_project.
Qed.

(** X4.  The columns the script does not select have no effect: two loaded
    frames that agree on the ten selected columns, row by row, give the same
    filtered frame and the same document, whatever else they hold and in
    whatever order their headers are. *)
Theorem unused_columns_ignored (csv1 csv2 : frame) :
  well_formed csv1 = true -> well_formed csv2 = true ->
  has_columns csv1 columns_for_viz = true ->
  has_columns csv2 columns_for_viz = true ->
  map (narrow csv1) (values csv1) = map (narrow csv2) (values csv2) ->
  df_clean csv1 = df_clean csv2 /\ data_json csv1 = data_json csv2.
Proof.
  intros Hwf1 Hwf2 Hc1 Hc2 Hsame.
  assert (df csv1 = df csv2) as Hdf
    by now rewrite (df_spec csv1 Hwf1 Hc1), (df_spec csv2 Hwf2 Hc2), Hsame.
  assert (df_clean csv1 = df_clean csv2) as Hclean
    by (unfold df_clean; now rewrite Hdf).
  split; [assumption |]. unfold data_json. now rewrite Hclean.
Qed.

(** X5.  Rows are handled one by one: the records written for a table are
    the records written for its first rows followed by the records written
    for its remaining rows. *)
Theorem rows_processed_independently (header : list string) (a b : list row) :
  well_formed (mkFrame header (a ++ b)) = true ->
  has_columns (mkFrame header (a ++ b)) columns_for_viz = true ->
  exists ra rb,
    data_json (mkFrame header a) = Ok (JArray ra)
    /\ data_json (mkFrame header b) = Ok (JArray rb)
    /\ data_json (mkFrame header (a ++ b)) = Ok (JArray (ra ++ rb)).
Proof.
  intros Hwf Hc.
  assert (well_formed (mkFrame header a) = true
          /\ well_formed (mkFrame header b) = true) as [Ha Hb].
  { unfold well_formed in *. cbn [columns values] in *.
    apply andb_true_iff in Hwf as [Hu Hs]. rewrite forallb_app in Hs.
    apply andb_true_iff in Hs as [Hsa Hsb]. now rewrite Hu, Hsa, Hsb. }
  eexists. eexists.
  split; [apply (data_json_spec (mkFrame header a) Ha Hc) |].
  split; [apply (data_json_spec (mkFrame header b) Hb Hc) |].
  rewrite (data_json_spec _ Hwf Hc). unfold survivors. cbn [values].
  now rewrite filter_app, !map_app.
Qed.

(** X6.  The script writes the empty array exactly when no row passes the
    null check; a table without rows is not an error. *)
Theorem empty_output_iff (csv : frame) :
  well_formed csv = true -> has_columns csv columns_for_viz = true ->
  exists doc,
    data_json csv = Ok doc
    /\ (doc = JArray [] <-> forall r, In r (values csv) -> keep csv r = false)
    /\ (values csv = [] -> doc = JArray []).
Proof.
  intros Hwf Hc. eexists. split; [now apply data_json_spec |].
  assert (map (to_record columns_for_viz) (map (narrow csv) (survivors csv)) = []
          <-> survivors csv = []) as Hnil.
  { split.
    - intros H. now apply map_eq_nil, map_eq_nil in H.
    - now intros ->. }
  split.
  - unfold survivors in Hnil. rewrite <- filter_nil_iff, <- Hnil.
    split; [intros [= H]; exact H | intros H; f_equal; exact H].
  - intros Hrows. unfold survivors. now rewrite Hrows.
Qed.




Lemma unique_id (labels : list string) :
  is_unique labels = true -> unique labels = labels.
Proof.
  induction labels as [| l rest IH]; intros Hu; [reflexivity |].
  simpl in Hu. apply andb_true_iff in Hu as [Hl Hu].
  apply negb_true_iff, has_label_notin in Hl.
  cbn [unique]. rewrite (IH Hu). f_equal. apply filter_all. intros k Hk.
  apply negb_true_iff. destruct (String.eqb k l) eqn:E; [| reflexivity].
  apply String.eqb_eq in E. now subst k.
Qed.

Lemma is_unique_filter (p : string -> bool) (labels : list string) :
  is_unique labels = true -> is_unique (filter p labels) = true.
Proof. rewrite !is_unique_NoDup. apply NoDup_filter. Qed.

(** X8.  When a selected column is not in the header, the script stops with
    a KeyError that names the missing columns: each selected column that the
    header lacks, once, in the order of [columns_for_viz].  This needs no
    assumption on the frame. *)
Theorem key_error_names_missing_columns (csv : frame) :
  has_columns csv columns_for_viz = false ->
  data_json csv = Raise (KeyError (not_found (columns csv) columns_for_viz))
  /\ not_found (columns csv) columns_for_viz <> []
  /\ (forall k, In k (not_found (columns csv) columns_for_viz)
                <-> In k columns_for_viz /\ ~ In k (columns csv)).
Proof.
  intros Hc. split; [| split].
  - unfold data_json, df_clean, df. rewrite (getitem_raise _ _ Hc). cbn [bind].
    rewrite unique_id; [reflexivity |]. now apply is_unique_filter.
  - intros Hnil. apply not_found_nil in Hnil. unfold has_columns in Hc.
    congruence.
  - intros k. unfold not_found. rewrite filter_In, negb_true_iff.
    now rewrite has_label_notin.
Qed.

(** X9.  On a loaded frame the stages before the file is opened, that is
    projection, filter and serialisation, yield the document exactly when
    the header holds the ten columns, and they never raise a ValueError.
    Opening and writing the file is outside this embedding. *)
Theorem script_outcome (csv : frame) :
  well_formed csv = true ->
  ((exists doc, data_json csv = Ok doc)
   <-> has_columns csv columns_for_viz = true)
  /\ (forall msg, data_json csv <> Raise (ValueError msg)).
Proof.
  intros Hwf. destruct (has_columns csv columns_for_viz) eqn:Hc.
  - rewrite (data_json_spec csv Hwf Hc). split; [| discriminate].
    split; [reflexivity | intros _; now eexists].
  - unfold data_json, df_clean, df. rewrite (getitem_raise _ _ Hc). cbn [bind].
    split; [| discriminate]. split; [intros [doc H]; discriminate | discriminate].
Qed.

Lemma get_locs_sound (k : string) (labels : list string) (i p : nat) :
  In p (get_locs k labels i) -> i <= p /\ nth (p - i) labels "" = k.
Proof.
  revert i. induction labels as [| l rest IH]; intros i Hp; [destruct Hp |].
  cbn [get_locs] in Hp. destruct (String.eqb k l) eqn:E.
  - destruct Hp as [<- | Hp].
    + apply String.eqb_eq in E. rewrite Nat.sub_diag. now split.
    + destruct (IH (S i) Hp) as [Hle Hnth]. split; [lia |].
      replace (p - i) with (S (p - S i)) by lia. exact Hnth.
  - destruct (IH (S i) Hp) as [Hle Hnth]. split; [lia |].
    replace (p - i) with (S (p - S i)) by lia. exact Hnth.
Qed.

(** A requested label is a label of the projected header, on any frame. *)
Lemma take_labels_has (labels key : list string) (k : string) :
  existsb is_missing (get_indexer_for labels key) = false -> In k key ->
  In k (take_labels (found (get_indexer_for labels key)) labels).
Proof.
  unfold get_indexer_for, take_labels.
  induction key as [| k0 rest IH]; intros Hm Hk; [destruct Hk |].
  cbn [flat_map] in *. rewrite existsb_app in Hm.
  apply orb_false_iff in Hm as [Hm0 Hm]. rewrite found_app, map_app.
  apply in_or_app. destruct Hk as [-> | Hk]; [left | right; now apply IH].
  destruct (get_locs k labels 0) as [| p locs] eqn:E; [discriminate Hm0 |].
  rewrite found_map_Some. left.
  destruct (get_locs_sound k labels 0 p) as [_ Hnth]; [rewrite E; now left |].
  now rewrite Nat.sub_0_r in Hnth.
Qed.

Lemma getitem_columns_has (d d' : frame) (key : list string) (k : string) :
  getitem d key = Ok d' -> In k key -> In k (columns d').
Proof.
  unfold getitem, get_indexer_strict. intros Hd Hk.
  destruct (existsb is_missing (get_indexer_for (columns d) key)) eqn:Hm;
    [discriminate Hd |].
  cbn [bind] in Hd. injection Hd as <-. cbn [columns].
  now apply take_labels_has.
Qed.

(** X10.  Once the projection has succeeded the filter cannot fail: every
    label of the [dropna] call is one of the projected columns, so a
    KeyError of the script always comes from the projection.  This holds on
    any frame, rectangular or not, with or without repeated labels. *)
Theorem dropna_after_projection_succeeds (csv d : frame) :
  df csv = Ok d ->
  exists out, dropna dropna_subset d = Ok out /\ columns out = columns d.
Proof.
  intros Hd. eexists. split; [apply dropna_ok | reflexivity].
  apply forallb_forall. intros k Hk. apply has_label_In.
  apply (getitem_columns_has csv d columns_for_viz k Hd).
  apply has_label_In.
  now apply (proj1 (forallb_forall (has_label columns_for_viz) dropna_subset)).
Qed.

Lemma na_free_cell_at (labels : list string) (r : row) (k : string) :
  forallb na_free r = true -> na_free (cell_at labels r k) = true.
Proof.
  intros Hr. unfold cell_at, row_get.
  destruct (get_loc k labels) as [j |]; [| reflexivity].
  destruct (nth_error r j) as [v |] eqn:E; [| reflexivity].
  apply nth_error_In in E. now apply (proj1 (forallb_forall na_free r) Hr).
Qed.

(** X12.  The filtered frame keeps what the load guaranteed: its header is
    [columns_for_viz], without repeats, its rows all have ten cells, and no
    missing-value marker appears as a text in it if none did in the loaded
    frame. *)
Theorem df_clean_keeps_load_invariants (csv : frame) :
  well_formed csv = true -> has_columns csv columns_for_viz = true ->
  exists out,
    df_clean csv = Ok out
    /\ columns out = columns_for_viz
    /\ well_formed out = true
    /\ Forall (fun r => length r = 10) (values out)
    /\ (na_filtered csv = true -> na_filtered out = true).
Proof.
  intros Hwf Hc. eexists. split; [now apply df_clean_spec |].
  split; [reflexivity |]. split; [now apply well_formed_project |].
  cbn [values]. split.
  - apply Forall_forall. intros r' Hr'. apply in_map_iff in Hr' as [r [<- _]].
    apply project_length.
  - intros Hna. unfold na_filtered in *. cbn [values].
    rewrite forallb_forall in *. intros r' Hr'.
    apply in_map_iff in Hr' as [r [<- Hr]].
    apply filter_In in Hr as [Hr _]. unfold narrow, project.
    rewrite forallb_map_comp. apply forallb_forall. intros k _.
    apply na_free_cell_at. now apply Hna.
Qed.

(** X13.  Selecting columns twice is selecting once: on a loaded frame,
    taking the columns [k1] (no label repeated) and then, of these, the
    columns [k2] gives the frame that taking [k2] directly gives. *)
Theorem getitem_twice (k1 k2 : list string) (d : frame) :
  well_formed d = true -> has_columns d k1 = true -> is_unique k1 = true ->
  forallb (has_label k1) k2 = true ->
  (d1 <- getitem d k1 ;; getitem d1 k2) = getitem d k2.
Proof.
  intros Hwf H1 Hu H2.
  rewrite (getitem_spec k1 d Hwf H1). cbn [bind].
  rewrite getitem_spec; [| now apply well_formed_project | exact H2].
  rewrite (getitem_spec k2 d Hwf (has_columns_incl d k1 k2 H1 H2)).
  cbn [columns values]. do 2 f_equal. rewrite map_map.
  apply map_ext. intros r. unfold project at 1 3. apply map_ext_in.
  intros k Hk. apply cell_at_project.
  now apply (proj1 (forallb_forall (has_label k1) k2)).
Qed.

(** X14.  On a loaded frame the filter depends on which labels its subset
    names, not on their order or on repeats: two subsets with the same
    labels keep the same rows. *)
Theorem dropna_subset_as_set (s1 s2 : list string) (d : frame) :
  well_formed d = true -> has_columns d s1 = true ->
  (forall k, In k s1 <-> In k s2) ->
  dropna s1 d = dropna s2 d.
Proof.
  intros Hwf H1 Hsame.
  assert (has_columns d s2 = true) as H2.
  { unfold has_columns in *. rewrite forallb_forall in *.
    intros k Hk. apply H1. now apply Hsame. }
  rewrite (dropna_spec s1 d Hwf H1), (dropna_spec s2 d Hwf H2). do 2 f_equal.
  apply filter_ext. intros r. unfold complete.
  destruct (forallb (holds (columns d) r) s2) eqn:E.
  - rewrite forallb_forall in *. intros k Hk. apply E. now apply Hsame.
  - destruct (forallb (holds (columns d) r) s1) eqn:F; [| reflexivity].
    rewrite <- E. symmetry. rewrite forallb_forall in *.
    intros k Hk. apply F. now apply Hsame.
Qed.

End Composition.

(** * The properties on the sample frames *)

(** [dropna] tests for NaN only: on a frame built by hand with an empty text
    under Country the row stays.  [read_csv] never returns such a frame. *)
Example dropna_keeps_empty_text :
  dropna ["Country"] (mkFrame ["Country"] [[@Str number64 ""]; [NaN]])
  = Ok (mkFrame ["Country"] [[Str ""]]).
Proof. reflexivity. Qed.

(** A header that lost a column stops the script at the projection. *)
Example drifted_header_raises :
  df survey_drifted = Raise (KeyError ["AISelect"])
  /\ data_json survey_drifted = Raise (KeyError ["AISelect"]).
Proof. split; reflexivity. Qed.

(** C1, as stated, fails: the row of [survey_no_ai] is non-null under each
    of the eight columns the claim lists (the selection minus
    ConvertedCompYearly and AISelect), and the filter drops it, because its
    AISelect is null. *)
Lemma aiselect_null_row_dropped :
  well_formed survey_no_ai = true
  /\ has_columns survey_no_ai columns_for_viz = true
  /\ values survey_no_ai = [row_no_ai]
  /\ complete (columns survey_no_ai)
       (remove string_dec "AISelect"
          (remove string_dec "ConvertedCompYearly" columns_for_viz))
       row_no_ai = true
  /\ df_clean survey_no_ai = Ok (mkFrame columns_for_viz []).
Proof. repeat split. Qed.

(** C1 (amended) on the survey. *)
Lemma required_nonnull_columns_witness :
  well_formed survey = true /\ has_columns survey columns_for_viz = true
  /\ dropna_subset = remove string_dec "ConvertedCompYearly" columns_for_viz
  /\ exists out,
       df_clean survey = Ok out
       /\ values out
          = map (narrow survey)
              (filter (complete (columns survey) dropna_subset) (values survey))
       /\ (forall r, In r (values survey) ->
             (complete (columns survey) dropna_subset r = true
              <-> forall k, In k dropna_subset ->
                    row_get (columns survey) r k <> Some NaN))
       /\ (forall i r, nth_error (values survey) i = Some r ->
             complete (columns survey) dropna_subset r = true ->
             row_get (columns survey) r "ConvertedCompYearly" = Some NaN ->
             exists r',
               nth_error (values out) (rank (keep survey) (values survey) i)
               = Some r'
               /\ row_get columns_for_viz r' "ConvertedCompYearly" = Some NaN)
       /\ Forall (fun r' => row_get columns_for_viz r' "AISelect" <> Some NaN)
            (values out).
Proof.
  split; [reflexivity |]. split; [reflexivity |].
  apply (required_nonnull_columns survey); reflexivity.
Defined.



(** C3, as stated, fails: the one row of [survey_no_ai] has no null in any
    of the eight columns the specification requires (the selection minus
    ConvertedCompYearly and AISelect), and yet no record is written for
    it. *)
Lemma no_ai_row_breaks_count :
  (forall r k, In r (values survey_no_ai) ->
     In k (remove string_dec "AISelect"
             (remove string_dec "ConvertedCompYearly" columns_for_viz)) ->
     row_get (columns survey_no_ai) r k <> Some NaN)
  /\ length (values survey_no_ai) = 1
  /\ exists doc,
       data_json survey_no_ai = Ok doc /\ length (records doc) = 0.
Proof.
  split; [| split; [reflexivity | eexists; split; reflexivity]].
  intros r k [<- | []] Hk. cbn in Hk.
  repeat (destruct Hk as [<- | Hk]; [discriminate |]). destruct Hk.
Qed.

(** C3 (amended) on the survey with only complete rows, where the counts
    are equal. *)
Lemma record_count_witness :
  well_formed survey_complete = true
  /\ has_columns survey_complete columns_for_viz = true
  /\ exists doc,
       data_json survey_complete = Ok doc
       /\ length (records doc) <= length (values survey_complete)
       /\ (length (records doc) = length (values survey_complete)
           <-> forall r k, In r (values survey_complete) ->
                 In k ["Age"; "YearsCodePro"; "Country"; "Currency"; "CompTotal";
     "LanguageHaveWorkedWith"; "NEWCollabToolsHaveWorkedWith";
     "OpSysProfessional use"; "AISelect"] ->
                 row_get (columns survey_complete) r k <> Some NaN).
Proof.
  split; [reflexivity |]. split; [reflexivity |].
  apply (record_count survey_complete); reflexivity.
Defined.

(** C4 on the survey: rows 0 and 3 survive, in that order. *)
Lemma order_preserved_witness :
  well_formed survey = true /\ has_columns survey columns_for_viz = true
  /\ 0 < 3
  /\ nth_error (values survey) 0 = Some row_scenario
  /\ nth_error (values survey) 3 = Some row_full
  /\ keep survey row_scenario = true /\ keep survey row_full = true
  /\ exists doc,
       data_json survey = Ok doc
       /\ rank (keep survey) (values survey) 0 < rank (keep survey) (values survey) 3
       /\ nth_error (records doc) (rank (keep survey) (values survey) 0)
          = Some (to_record columns_for_viz (narrow survey row_scenario))
       /\ nth_error (records doc) (rank (keep survey) (values survey) 3)
          = Some (to_record columns_for_viz (narrow survey row_full)).
Proof.
  split; [reflexivity |]. split; [reflexivity |]. split; [lia |].
  split; [reflexivity |]. split; [reflexivity |]. split; [reflexivity |].
  split; [reflexivity |].
  apply (order_preserved survey 0 3 row_scenario row_full);
    solve [reflexivity | lia].
Defined.

(** C5 on the survey. *)
Lemma record_keys_witness :
  well_formed survey = true /\ has_columns survey columns_for_viz = true
  /\ exists doc,
       data_json survey = Ok doc
       /\ doc = JArray (records doc)
       /\ Forall (fun rec => json_keys rec = Some columns_for_viz) (records doc).
Proof.
  split; [reflexivity |]. split; [reflexivity |].
  apply (record_keys survey); reflexivity.
Defined.

(** C6 on the survey. *)
Lemma projector_columns_or_key_error_witness :
  well_formed survey = true
  /\ (has_columns survey columns_for_viz = true ->
      exists d,
        df survey = Ok d
        /\ columns d = columns_for_viz
        /\ values d = map (project (columns survey) columns_for_viz) (values survey))
  /\ ((exists labels, df survey = Raise (KeyError labels))
      <-> exists k, In k columns_for_viz /\ ~ In k (columns survey))
  /\ (forall e, df survey = Raise e -> data_json survey = Raise e).
Proof.
  split; [reflexivity |].
  apply (projector_columns_or_key_error survey); reflexivity.
Defined.

(** C7, as stated, fails: the one row of [survey_no_ai] satisfies the null
    check on the eight columns the specification requires, and reading the
    document back gives no record. *)
Lemma no_ai_row_not_read_back :
  length
    (filter
       (complete (columns survey_no_ai)
          (remove string_dec "AISelect"
             (remove string_dec "ConvertedCompYearly" columns_for_viz)))
       (values survey_no_ai)) = 1
  /\ exists doc recs,
       data_json survey_no_ai = Ok doc
       /\ json_load doc = Some recs
       /\ length recs = 0.
Proof.
  split; [reflexivity |]. eexists. eexists.
  split; [reflexivity |]. split; reflexivity.
Qed.

(** C7 (amended) on the survey. *)
Lemma round_trip_length_witness :
  well_formed survey = true /\ has_columns survey columns_for_viz = true
  /\ exists doc recs,
       data_json survey = Ok doc
       /\ doc = JArray (records doc)
       /\ length (records doc)
          = length
              (filter
                 (complete (columns survey)
                    ["Age"; "YearsCodePro"; "Country"; "Currency"; "CompTotal";
     "LanguageHaveWorkedWith"; "NEWCollabToolsHaveWorkedWith";
     "OpSysProfessional use"; "AISelect"])
                 (values survey))
       /\ json_load doc = Some recs
       /\ length recs = length (records doc).
Proof.
  split; [reflexivity |]. split; [reflexivity |].
  apply (round_trip_length survey); reflexivity.
Defined.

(** C8 on the survey: row 0 is the row of the scenario. *)
Lemma scenario_row_retained_witness :
  well_formed survey = true /\ has_columns survey columns_for_viz = true
  /\ nth_error (values survey) 0 = Some row_scenario
  /\ exists out doc rec,
       df_clean survey = Ok out
       /\ nth_error (values out) (rank (keep survey) (values survey) 0)
          = Some (narrow survey row_scenario)
       /\ data_json survey = Ok doc
       /\ nth_error (records doc) (rank (keep survey) (values survey) 0) = Some rec
       /\ json_get rec "ConvertedCompYearly" = Some JNull.
Proof.
  split; [reflexivity |]. split; [reflexivity |]. split; [reflexivity |].
  apply (scenario_row_retained survey 0 row_scenario); reflexivity.
Defined.



(** The CompTotal of row 3 of the survey is a cell that is written
    exactly. *)
Example whole_number_written_exactly :
  written_exactly (Num (whole 65000)) = true
  /\ written_exactly (Num (dyadic 368640001 12)) = false.
Proof. split; vm_compute; reflexivity. Qed.

(** * The composition properties on the sample frames *)

(** X1 on the survey: the nine labels split after the first five. *)
Lemma dropna_app_witness :
  forallb (has_label (columns survey))
    (["Age"; "YearsCodePro"; "Country"; "Currency"; "CompTotal"]
     ++ ["LanguageHaveWorkedWith"; "NEWCollabToolsHaveWorkedWith";
         "OpSysProfessional use"; "AISelect"]) = true
  /\ dropna
       (["Age"; "YearsCodePro"; "Country"; "Currency"; "CompTotal"]
        ++ ["LanguageHaveWorkedWith"; "NEWCollabToolsHaveWorkedWith";
            "OpSysProfessional use"; "AISelect"]) survey
     = (d' <- dropna ["Age"; "YearsCodePro"; "Country"; "Currency"; "CompTotal"]
                survey ;;
        dropna ["LanguageHaveWorkedWith"; "NEWCollabToolsHaveWorkedWith";
                "OpSysProfessional use"; "AISelect"] d').
Proof.
  split; [reflexivity |]. apply (dropna_app _ _ survey). reflexivity.
Defined.

(** X2 on the survey. *)
Lemma filter_then_project_witness :
  well_formed survey = true /\ has_columns survey columns_for_viz = true
  /\ (d <- dropna dropna_subset survey ;; getitem d columns_for_viz)
     = df_clean survey.
Proof.
  split; [reflexivity |]. split; [reflexivity |].
  apply (filter_then_project survey); reflexivity.
Defined.

(** X3 on the survey. *)
Lemma df_clean_fixpoint_witness :
  well_formed survey = true /\ has_columns survey columns_for_viz = true
  /\ df_clean survey
     = Ok (mkFrame columns_for_viz
             [narrow survey row_scenario; narrow survey row_full])
  /\ df_clean (mkFrame columns_for_viz
                 [narrow survey row_scenario; narrow survey row_full])
     = Ok (mkFrame columns_for_viz
             [narrow survey row_scenario; narrow survey row_full]).
Proof.
  split; [reflexivity |]. split; [reflexivity |]. split; [reflexivity |].
  apply (df_clean_fixpoint survey); reflexivity.
Defined.

(** X4 on the survey and its other export. *)
Lemma unused_columns_ignored_witness :
  well_formed survey = true /\ well_formed survey_reordered = true
  /\ has_columns survey columns_for_viz = true
  /\ has_columns survey_reordered columns_for_viz = true
  /\ map (narrow survey) (values survey)
     = map (narrow survey_reordered) (values survey_reordered)
  /\ df_clean survey = df_clean survey_reordered
  /\ data_json survey = data_json survey_reordered.
Proof.
  split; [reflexivity |]. split; [reflexivity |]. split; [reflexivity |].
  split; [reflexivity |]. split; [reflexivity |].
  apply (unused_columns_ignored survey survey_reordered); reflexivity.
Defined.

(** X5 on the survey, cut after its second row. *)
Lemma rows_processed_independently_witness :
  well_formed
    (mkFrame survey_header
       ([row_scenario; row_no_ai] ++ [row_no_country; row_full])) = true
  /\ has_columns
       (mkFrame survey_header
          ([row_scenario; row_no_ai] ++ [row_no_country; row_full]))
       columns_for_viz = true
  /\ exists ra rb,
       data_json (mkFrame survey_header [row_scenario; row_no_ai])
       = Ok (JArray ra)
       /\ data_json (mkFrame survey_header [row_no_country; row_full])
          = Ok (JArray rb)
       /\ data_json
            (mkFrame survey_header
               ([row_scenario; row_no_ai] ++ [row_no_country; row_full]))
          = Ok (JArray (ra ++ rb)).
Proof.
  split; [reflexivity |]. split; [reflexivity |].
  apply (rows_processed_independently survey_header); reflexivity.
Defined.

(** X6 on the survey with only the row that has no AISelect. *)
Lemma empty_output_iff_witness :
  well_formed survey_no_ai = true
  /\ has_columns survey_no_ai columns_for_viz = true
  /\ exists doc,
       data_json survey_no_ai = Ok doc
       /\ (doc = JArray []
           <-> forall r, In r (values survey_no_ai) -> keep survey_no_ai r = false)
       /\ (values survey_no_ai = [] -> doc = JArray []).
Proof.
  split; [reflexivity |]. split; [reflexivity |].
  apply (empty_output_iff survey_no_ai); reflexivity.
Defined.


(** X8 on the file whose header lost AISelect. *)
Lemma key_error_names_missing_columns_witness :
  has_columns survey_drifted columns_for_viz = false
  /\ data_json survey_drifted
     = Raise (KeyError (not_found (columns survey_drifted) columns_for_viz))
  /\ not_found (columns survey_drifted) columns_for_viz <> []
  /\ (forall k, In k (not_found (columns survey_drifted) columns_for_viz)
                <-> In k columns_for_viz /\ ~ In k (columns survey_drifted)).
Proof.
  split; [reflexivity |].
  apply (key_error_names_missing_columns survey_drifted). reflexivity.
Defined.

(** X9 on the file whose header lost AISelect. *)
Lemma script_outcome_witness :
  well_formed survey_drifted = true
  /\ ((exists doc, data_json survey_drifted = Ok doc)
      <-> has_columns survey_drifted columns_for_viz = true)
  /\ (forall msg, data_json survey_drifted <> Raise (ValueError msg)).
Proof.
  split; [reflexivity |]. apply (script_outcome survey_drifted). reflexivity.
Defined.

(** X10 on the survey. *)
Lemma dropna_after_projection_succeeds_witness :
  df survey = Ok (mkFrame columns_for_viz (map (narrow survey) (values survey)))
  /\ exists out,
       dropna dropna_subset
         (mkFrame columns_for_viz (map (narrow survey) (values survey)))
       = Ok out
       /\ columns out
          = columns (mkFrame columns_for_viz (map (narrow survey) (values survey))).
Proof.
  split; [reflexivity |].
  apply (dropna_after_projection_succeeds survey). reflexivity.
Defined.

(** X12 on the survey. *)
Lemma df_clean_keeps_load_invariants_witness :
  well_formed survey = true /\ has_columns survey columns_for_viz = true
  /\ exists out,
       df_clean survey = Ok out
       /\ columns out = columns_for_viz
       /\ well_formed out = true
       /\ Forall (fun r => length r = 10) (values out)
       /\ (na_filtered survey = true -> na_filtered out = true).
Proof.
  split; [reflexivity |]. split; [reflexivity |].
  apply (df_clean_keeps_load_invariants survey); reflexivity.
Defined.

(** X13 on the survey: the ten columns, then three of them. *)
Lemma getitem_twice_witness :
  well_formed survey = true /\ has_columns survey columns_for_viz = true
  /\ is_unique columns_for_viz = true
  /\ forallb (has_label columns_for_viz) ["Country"; "AISelect"; "Age"] = true
  /\ (d1 <- getitem survey columns_for_viz ;;
      getitem d1 ["Country"; "AISelect"; "Age"])
     = getitem survey ["Country"; "AISelect"; "Age"].
Proof.
  split; [reflexivity |]. split; [reflexivity |]. split; [reflexivity |].
  split; [reflexivity |].
  apply (getitem_twice columns_for_viz _ survey); reflexivity.
Defined.

(** X14 on the survey: the subset of the script against the same labels in
    the order of the header, Country named twice. *)
Lemma dropna_subset_as_set_witness :
  well_formed survey = true /\ has_columns survey dropna_subset = true
  /\ (forall k,
        In k dropna_subset
        <-> In k ["Country"; "Age"; "AISelect"; "YearsCodePro"; "Currency";
                  "CompTotal"; "Country"; "LanguageHaveWorkedWith";
                  "NEWCollabToolsHaveWorkedWith"; "OpSysProfessional use"])
  /\ dropna dropna_subset survey
     = dropna ["Country"; "Age"; "AISelect"; "YearsCodePro"; "Currency";
               "CompTotal"; "Country"; "LanguageHaveWorkedWith";
               "NEWCollabToolsHaveWorkedWith"; "OpSysProfessional use"] survey.
Proof.
  split; [reflexivity |]. split; [reflexivity |].
  split; [intros k; cbn; tauto |].
  apply (dropna_subset_as_set _ _ survey);
    [reflexivity | reflexivity | intros k; cbn; tauto].
Defined.
